(** * steelseries-sonar-js: the Sonar client (src/sonar.ts) and its error
      taxonomy (src/exceptions.ts), embedded shallowly.

    The client is a TypeScript class whose methods mutate [this], throw
    exceptions and await HTTP requests.  Methods are embedded in a state
    and exception monad over the pair (object, request log).  Everything the
    class calls but does not define (the file system, [JSON.parse], the
    number printer, the HTTP transport and the remote server) is gathered in
    one environment record, the way the repository's own test suite replaces
    them by mocks. *)

From Stdlib Require Import String Ascii List Bool ZArith Lia.
From Stdlib Require Import Floats.PrimFloat.
From Stdlib Require Floats.FloatOps Floats.FloatAxioms Floats.SpecFloat.
Import ListNotations.
Open Scope string_scope.
Open Scope Z_scope.

Set Warnings "-register-all,-inexact-float".

(** ** JavaScript values

    Decoded JSON and everything else the client handles dynamically.  A
    JS number is an IEEE binary64, which is what a primitive float is. *)

Inductive JsValue : Type :=
| JUndefined
| JNull
| JBool (b : bool)
| JNum (n : float)
| JStr (s : string)
| JArr (items : list JsValue)
| JObj (fields : list (string * JsValue)).

(** ** src/exceptions.ts *)

Inductive SonarError : Type :=
| EnginePathNotFoundError
| ServerNotAccessibleError (statusCode : Z)
| SonarNotEnabledError
| ServerNotReadyError
| ServerNotRunningError
| WebServerAddressNotFoundError
| ChannelNotFoundError (channel : string)
| SliderNotFoundError (slider : string)
| InvalidVolumeError (volume : float)
| InvalidMixVolumeError (mixVolume : float).

(** Errors that come from outside the library: the transport's [AxiosError]
    (whose [response], when there is one, carries a status) and the
    runtime's own errors. *)
Inductive ExternalError : Type :=
| AxiosError (response : option Z)
| TypeError
| SyntaxError
| SystemError (code : string).

(** Everything that can be thrown. *)
Inductive JsError : Type :=
| Thrown (e : SonarError)
| External (e : ExternalError).

Inductive Result (A : Type) : Type :=
| Ok (a : A)
| Err (e : JsError).
Arguments Ok {A} a.
Arguments Err {A} e.

(** ** The fragment of the language semantics the client relies on *)

Module Js.

(** [!!v] *)
Definition truthy (v : JsValue) : bool :=
  match v with
  | JUndefined | JNull => false
  | JBool b => b
  | JNum n => negb (PrimFloat.eqb n 0%float || PrimFloat.is_nan n)
  | JStr s => negb (String.eqb s "")
  | JArr _ | JObj _ => true
  end.

Fixpoint lookup (k : string) (fields : list (string * JsValue)) : JsValue :=
  match fields with
  | [] => JUndefined
  | (k', v) :: rest => if String.eqb k' k then v else lookup k rest
  end.

(** [v.k] for a name [k] that no prototype defines: a [TypeError] on
    [null] and [undefined], the own property of an object, [undefined]
    everywhere else. *)
Definition get (v : JsValue) (k : string) : Result JsValue :=
  match v with
  | JUndefined | JNull => Err (External TypeError)
  | JObj fields => Ok (lookup k fields)
  | _ => Ok JUndefined
  end.

(** [v === s] for a string literal [s] *)
Definition is_string (v : JsValue) (s : string) : bool :=
  match v with
  | JStr s' => String.eqb s' s
  | _ => false
  end.

Definition of_bool (b : bool) : string := if b then "true" else "false".

(** Whether an object has an own property [k]. *)
Definition has_own (k : string) (fields : list (string * JsValue)) : bool :=
  existsb (fun field => String.eqb (fst field) k) fields.

(** Conversion to string, as a template literal does it; [number] prints
    a number.  The values are those [JSON.parse] and the transport build,
    whose own properties are never functions.  An object is converted by
    the [toString] it inherits, which gives [[object Object]], unless an
    own property of that name hides it: the conversion then finds nothing
    to call that returns a primitive, and throws a [TypeError].  An array
    is converted by [join]: its items in order, [null] and [undefined]
    empty, separated by commas; the first item whose conversion throws
    makes the conversion of the array throw. *)
Fixpoint ToString (number : float -> string) (v : JsValue) : Result string :=
  match v with
  | JUndefined => Ok "undefined"
  | JNull => Ok "null"
  | JBool b => Ok (of_bool b)
  | JNum n => Ok (number n)
  | JStr s => Ok s
  | JArr items =>
      let item (x : JsValue) : Result string :=
        match x with
        | JUndefined | JNull => Ok ""
        | _ => ToString number x
        end in
      (fix join (l : list JsValue) : Result string :=
         match l with
         | [] => Ok ""
         | [x] => item x
         | x :: rest =>
             match item x with
             | Err e => Err e
             | Ok first =>
                 match join rest with
                 | Err e => Err e
                 | Ok others => Ok (first ++ "," ++ others)
                 end
             end
         end) items
  | JObj fields =>
      if has_own "toString" fields then Err (External TypeError)
      else Ok "[object Object]"
  end.

End Js.

(** ** The environment

    What the class reaches through [fs], [os], [path], [process], [JSON]
    and the axios instance.  The server answers a request knowing the
    requests that came before it, so that its answers may change over time. *)

Inductive Method : Type := GET | PUT.

Record Request : Type := { method : Method; url : string }.

Inductive HttpOutcome : Type :=
| Resolved (status : Z) (data : JsValue)
| Rejected (error : ExternalError).

Record Env : Type := {
  os_platform : string;
  env_ProgramData : option string;
  os_homedir : string;
  path_join : list string -> string;
  existsSync : string -> bool;
  readFileSync : string -> Result string;
  JSON_parse : string -> Result JsValue;
  Number_toString : float -> string;
  server : list Request -> Request -> HttpOutcome
}.

(** ** The client object and the monad of its methods *)

Record Sonar : Type := {
  appDataPath : string;
  baseUrl : string;
  webServerAddress : JsValue;
  volumePath : string;
  _streamerMode : bool
}.

Record SonarOptions : Type := {
  opt_appDataPath : option string;
  opt_streamerMode : option bool
}.

Record State : Type := { this : Sonar; log : list Request }.

Definition M (A : Type) : Type := State -> Result A * State.

Definition ret {A} (a : A) : M A := fun st => (Ok a, st).

Definition throw {A} (e : JsError) : M A := fun st => (Err e, st).

Definition bind {A B} (m : M A) (k : A -> M B) : M B :=
  fun st =>
    match m st with
    | (Ok a, st') => k a st'
    | (Err e, st') => (Err e, st')
    end.

Definition try_catch {A} (body : M A) (handler : JsError -> M A) : M A :=
  fun st =>
    match body st with
    | (Ok a, st') => (Ok a, st')
    | (Err e, st') => handler e st'
    end.

Definition lift {A} (r : Result A) : M A := fun st => (r, st).

Definition self : M Sonar := fun st => (Ok (this st), st).

Definition assign (f : Sonar -> Sonar) : M unit :=
  fun st => (Ok tt, {| this := f (this st); log := log st |}).

Declare Scope sonar_scope.
Delimit Scope sonar_scope with sonar.
Notation "x <- m ;; k" := (bind m (fun x => k))
  (at level 61, m at next level, right associativity) : sonar_scope.
Notation "m ;; k" := (bind m (fun _ => k))
  (at level 61, right associativity) : sonar_scope.
Open Scope sonar_scope.

Definition set_baseUrl (v : string) (s : Sonar) : Sonar :=
  {| appDataPath := appDataPath s; baseUrl := v;
     webServerAddress := webServerAddress s; volumePath := volumePath s;
     _streamerMode := _streamerMode s |}.

Definition set_webServerAddress (v : JsValue) (s : Sonar) : Sonar :=
  {| appDataPath := appDataPath s; baseUrl := baseUrl s;
     webServerAddress := v; volumePath := volumePath s;
     _streamerMode := _streamerMode s |}.

Definition set_volumePath (v : string) (s : Sonar) : Sonar :=
  {| appDataPath := appDataPath s; baseUrl := baseUrl s;
     webServerAddress := webServerAddress s; volumePath := v;
     _streamerMode := _streamerMode s |}.

Definition set_streamerMode (v : bool) (s : Sonar) : Sonar :=
  {| appDataPath := appDataPath s; baseUrl := baseUrl s;
     webServerAddress := webServerAddress s; volumePath := volumePath s;
     _streamerMode := v |}.

(** ** src/sonar.ts: constants *)

Definition CHANNEL_NAMES : list string :=
  ["master"; "game"; "chatRender"; "media"; "aux"; "chatCapture"].

Definition STREAMER_SLIDER_NAMES : list string := ["streaming"; "monitoring"].

Definition VOLUME_PATH : string := "/volumeSettings/classic".
Definition STREAMER_VOLUME_PATH : string := "/volumeSettings/streamer".

(** [Array.prototype.includes] on an array of strings *)
Definition includes (names : list string) (x : string) : bool :=
  existsb (String.eqb x) names.

(** ** src/sonar.ts: the class *)

Section Client.

Variable env : Env.

(** [JSON.stringify] of a number *)
Definition JSON_stringify (n : float) : string :=
  if PrimFloat.is_finite n then Number_toString env n else "null".

(** a template literal's [${v}], which throws when the conversion does *)
Definition template (v : JsValue) : Result string :=
  Js.ToString (Number_toString env) v.

(** [${this.webServerAddress}].  The field is declared a [string], and a
    string is its own conversion.  It is kept a [JsValue] here because
    [loadServerAddress] stores what the control plane sent, as it came;
    on every value whose conversion does not throw, [interpolate] is that
    conversion.  A value whose conversion throws is no string, whatever the
    declaration says: it is read here as the text of an object. *)
Definition interpolate (v : JsValue) : string :=
  match template v with
  | Ok text => text
  | Err _ => "[object Object]"
  end.

(** [await this.httpClient.get(url)] and [put(url)]: the request is
    recorded, and the server's answer resolves or rejects the call. *)
Definition httpClient (m : Method) (u : string) : M (Z * JsValue) :=
  fun st =>
    let r := {| method := m; url := u |} in
    (match server env (log st) r with
     | Resolved status data => Ok (status, data)
     | Rejected e => Err (External e)
     end,
     {| this := this st; log := log st ++ [r] |}).

(** The [catch] block every requesting method ends with. *)
Definition rethrow {A} (error : JsError) : M A :=
  match error with
  | External (AxiosError (Some status)) =>
      throw (Thrown (ServerNotAccessibleError status))
  | _ => throw error
  end.

Definition getDefaultAppDataPath : string :=
  let platform := os_platform env in
  if String.eqb platform "win32" then
    let programData :=
      match env_ProgramData env with
      | Some d => if String.eqb d "" then "C:\ProgramData" else d
      | None => "C:\ProgramData"
      end in
    path_join env
      [programData; "SteelSeries"; "SteelSeries Engine 3"; "coreProps.json"]
  else if String.eqb platform "darwin" then
    path_join env
      [os_homedir env; "Library"; "Application Support";
       "SteelSeries Engine 3"; "coreProps.json"]
  else
    path_join env
      [os_homedir env; ".local"; "share"; "SteelSeries Engine 3";
       "coreProps.json"].

(** [new Sonar(options)], field initialisers included *)
Definition constructor (options : SonarOptions) : Sonar :=
  let streamerMode :=
    match opt_streamerMode options with Some b => b | None => false end in
  {| appDataPath :=
       match opt_appDataPath options with
       | Some p => if String.eqb p "" then getDefaultAppDataPath else p
       | None => getDefaultAppDataPath
       end;
     baseUrl := "";
     webServerAddress := JStr "";
     volumePath := if streamerMode then STREAMER_VOLUME_PATH else VOLUME_PATH;
     _streamerMode := streamerMode |}.

Definition isStreamerMode : M bool :=
  sonar <- self ;;
  try_catch
    (response <- httpClient GET (interpolate (webServerAddress sonar) ++ "/mode/") ;;
     if negb (fst response =? 200)
     then throw (Thrown (ServerNotAccessibleError (fst response)))
     else ret (Js.is_string (snd response) "stream"))
    rethrow.

Definition setStreamerMode (streamerMode : bool) : M bool :=
  sonar <- self ;;
  let mode := if streamerMode then "stream" else "classic" in
  let url := interpolate (webServerAddress sonar) ++ "/mode/" ++ mode in
  try_catch
    (response <- httpClient PUT url ;;
     if negb (fst response =? 200)
     then throw (Thrown (ServerNotAccessibleError (fst response)))
     else
       assign (set_streamerMode (Js.is_string (snd response) "stream")) ;;
       sonar <- self ;;
       assign (set_volumePath (if _streamerMode sonar
                               then STREAMER_VOLUME_PATH else VOLUME_PATH)) ;;
       sonar <- self ;;
       ret (_streamerMode sonar))
    rethrow.

(** the getter [streamerMode] *)
Definition streamerMode : M bool :=
  sonar <- self ;; ret (_streamerMode sonar).

Definition loadBaseUrl : M unit :=
  sonar <- self ;;
  if negb (existsSync env (appDataPath sonar))
  then throw (Thrown EnginePathNotFoundError)
  else
    try_catch
      (fileContent <- lift (readFileSync env (appDataPath sonar)) ;;
       commonAppData <- lift (JSON_parse env fileContent) ;;
       ggEncryptedAddress <- lift (Js.get commonAppData "ggEncryptedAddress") ;;
       address <- lift (template ggEncryptedAddress) ;;
       assign (set_baseUrl ("https://" ++ address)))
      (fun _ => throw (Thrown EnginePathNotFoundError)).

Definition loadServerAddress : M unit :=
  sonar <- self ;;
  try_catch
    (appData <- httpClient GET (baseUrl sonar ++ "/subApps") ;;
     if negb (fst appData =? 200)
     then throw (Thrown (ServerNotAccessibleError (fst appData)))
     else
       let appDataJson := snd appData in
       subApps <- lift (Js.get appDataJson "subApps") ;;
       sonarApp <- lift (Js.get subApps "sonar") ;;
       isEnabled <- lift (Js.get sonarApp "isEnabled") ;;
       if negb (Js.truthy isEnabled) then throw (Thrown SonarNotEnabledError)
       else
         isReady <- lift (Js.get sonarApp "isReady") ;;
         if negb (Js.truthy isReady) then throw (Thrown ServerNotReadyError)
         else
           isRunning <- lift (Js.get sonarApp "isRunning") ;;
           if negb (Js.truthy isRunning) then throw (Thrown ServerNotRunningError)
           else
             metadata <- lift (Js.get sonarApp "metadata") ;;
             address <- lift (Js.get metadata "webServerAddress") ;;
             assign (set_webServerAddress address) ;;
             sonar <- self ;;
             if negb (Js.truthy (webServerAddress sonar))
                || Js.is_string (webServerAddress sonar) "null"
             then throw (Thrown WebServerAddressNotFoundError)
             else ret tt)
    rethrow.

Definition getVolumeData : M JsValue :=
  sonar <- self ;;
  let volumeInfoUrl :=
    interpolate (webServerAddress sonar) ++ volumePath sonar in
  try_catch
    (response <- httpClient GET volumeInfoUrl ;;
     if negb (fst response =? 200)
     then throw (Thrown (ServerNotAccessibleError (fst response)))
     else ret (snd response))
    rethrow.

Definition setVolume (channel : string) (volume : float)
    (streamerSlider : option string) : M JsValue :=
  let streamerSlider :=
    match streamerSlider with Some s => s | None => "streaming" end in
  sonar <- self ;;
  if negb (includes CHANNEL_NAMES channel)
  then throw (Thrown (ChannelNotFoundError channel))
  else if _streamerMode sonar
          && negb (includes STREAMER_SLIDER_NAMES streamerSlider)
  then throw (Thrown (SliderNotFoundError streamerSlider))
  else if PrimFloat.ltb volume 0 || PrimFloat.ltb 1 volume
  then throw (Thrown (InvalidVolumeError volume))
  else
    let fullVolumePath :=
      if _streamerMode sonar
      then volumePath sonar ++ "/" ++ streamerSlider
      else volumePath sonar in
    let url :=
      interpolate (webServerAddress sonar) ++ fullVolumePath ++ "/"
      ++ channel ++ "/Volume/" ++ JSON_stringify volume in
    try_catch
      (response <- httpClient PUT url ;;
       if negb (fst response =? 200)
       then throw (Thrown (ServerNotAccessibleError (fst response)))
       else ret (snd response))
      rethrow.

Definition muteChannel (channel : string) (muted : bool)
    (streamerSlider : option string) : M JsValue :=
  let streamerSlider :=
    match streamerSlider with Some s => s | None => "streaming" end in
  sonar <- self ;;
  if negb (includes CHANNEL_NAMES channel)
  then throw (Thrown (ChannelNotFoundError channel))
  else if _streamerMode sonar
          && negb (includes STREAMER_SLIDER_NAMES streamerSlider)
  then throw (Thrown (SliderNotFoundError streamerSlider))
  else
    let fullVolumePath :=
      if _streamerMode sonar
      then volumePath sonar ++ "/" ++ streamerSlider
      else volumePath sonar in
    let muteKeyword := if _streamerMode sonar then "isMuted" else "Mute" in
    let url :=
      interpolate (webServerAddress sonar) ++ fullVolumePath ++ "/"
      ++ channel ++ "/" ++ muteKeyword ++ "/" ++ Js.of_bool muted in
    try_catch
      (response <- httpClient PUT url ;;
       if negb (fst response =? 200)
       then throw (Thrown (ServerNotAccessibleError (fst response)))
       else ret (snd response))
      rethrow.

Definition getChatMixData : M JsValue :=
  sonar <- self ;;
  let chatMixUrl := interpolate (webServerAddress sonar) ++ "/chatMix" in
  try_catch
    (response <- httpClient GET chatMixUrl ;;
     if negb (fst response =? 200)
     then throw (Thrown (ServerNotAccessibleError (fst response)))
     else ret (snd response))
    rethrow.

Definition setChatMix (mixVolume : float) : M JsValue :=
  sonar <- self ;;
  if PrimFloat.ltb mixVolume (-1) || PrimFloat.ltb 1 mixVolume
  then throw (Thrown (InvalidMixVolumeError mixVolume))
  else
    let url :=
      interpolate (webServerAddress sonar) ++ "/chatMix?balance="
      ++ JSON_stringify mixVolume in
    try_catch
      (response <- httpClient PUT url ;;
       if negb (fst response =? 200)
       then throw (Thrown (ServerNotAccessibleError (fst response)))
       else ret (snd response))
      rethrow.

(** [Sonar.create(options)], run after the requests of [log0]: the result
    of the promise and the log of requests when it settles. *)
Definition create (options : SonarOptions) (log0 : list Request)
    : Result Sonar * list Request :=
  let body : M Sonar :=
    loadBaseUrl ;;
    loadServerAddress ;;
    match opt_streamerMode options with
    | None =>
        try_catch
          (probed <- isStreamerMode ;;
           assign (set_streamerMode probed) ;;
           sonar <- self ;;
           if _streamerMode sonar
           then assign (set_volumePath STREAMER_VOLUME_PATH)
           else ret tt)
          (fun _ => assign (set_streamerMode false))
    | Some _ => ret tt
    end ;;
    self in
  let (result, st) := body {| this := constructor options; log := log0 |} in
  (result, log st).

End Client.

(** ** The public operations of an instance *)

Inductive Operation : Type :=
| IsStreamerMode
| SetStreamerMode (streamerMode : bool)
| StreamerMode
| GetVolumeData
| SetVolume (channel : string) (volume : float) (streamerSlider : option string)
| MuteChannel (channel : string) (muted : bool) (streamerSlider : option string)
| GetChatMixData
| SetChatMix (mixVolume : float).

Definition call (env : Env) (op : Operation) : M JsValue :=
  match op with
  | IsStreamerMode => b <- isStreamerMode env ;; ret (JBool b)
  | SetStreamerMode b => b' <- setStreamerMode env b ;; ret (JBool b')
  | StreamerMode => b <- streamerMode ;; ret (JBool b)
  | GetVolumeData => getVolumeData env
  | SetVolume channel volume slider => setVolume env channel volume slider
  | MuteChannel channel muted slider => muteChannel env channel muted slider
  | GetChatMixData => getChatMixData env
  | SetChatMix mixVolume => setChatMix env mixVolume
  end.

(** ** Vocabulary of the properties *)

(** The volume path that goes with a mode flag. *)
Definition path_of_mode (streamer : bool) : string :=
  if streamer then STREAMER_VOLUME_PATH else VOLUME_PATH.


(** What a caller gets from a request that was answered by [o]. *)
Definition surfaced (o : HttpOutcome) : Result JsValue :=
  match o with
  | Resolved status data =>
      if status =? 200 then Ok data
      else Err (Thrown (ServerNotAccessibleError status))
  | Rejected (AxiosError (Some status)) =>
      Err (Thrown (ServerNotAccessibleError status))
  | Rejected e => Err (External e)
  end.

Definition sent (m : Method) (u : string) (st : State) : State :=
  {| this := this st; log := log st ++ [{| method := m; url := u |}] |}.

(** The result and the state after a request that had to be sent. *)
Definition answered (env : Env) (m : Method) (u : string) (st : State)
    : Result JsValue * State :=
  (surfaced (server env (log st) {| method := m; url := u |}), sent m u st).

(** The stored path, followed by the slider in streamer mode only. *)
Definition fullVolumePath (s : Sonar) (slider : string) : string :=
  if _streamerMode s then volumePath s ++ "/" ++ slider else volumePath s.

Definition slider_or_default (streamerSlider : option string) : string :=
  match streamerSlider with Some s => s | None => "streaming" end.

(** The interface [SubAppInfo], and the JSON document of that shape. *)
Record SubAppInfo : Type := {
  isEnabled : bool;
  isReady : bool;
  isRunning : bool;
  metadata_webServerAddress : string
}.

Definition SubAppInfo_json (d : SubAppInfo) : JsValue :=
  JObj [("subApps",
         JObj [("sonar",
                JObj [("isEnabled", JBool (isEnabled d));
                      ("isReady", JBool (isReady d));
                      ("isRunning", JBool (isRunning d));
                      ("metadata",
                       JObj [("webServerAddress",
                              JStr (metadata_webServerAddress d))])])])].

(** The document [data] holds the descriptor [d]: the properties the
    lookup reads are there with the values of [d], among whatever else the
    control plane reports. *)
Definition describes (data : JsValue) (d : SubAppInfo) : Prop :=
  exists subApps sonarApp metadata,
    Js.get data "subApps" = Ok subApps
    /\ Js.get subApps "sonar" = Ok sonarApp
    /\ Js.get sonarApp "isEnabled" = Ok (JBool (isEnabled d))
    /\ Js.get sonarApp "isReady" = Ok (JBool (isReady d))
    /\ Js.get sonarApp "isRunning" = Ok (JBool (isRunning d))
    /\ Js.get sonarApp "metadata" = Ok metadata
    /\ Js.get metadata "webServerAddress"
       = Ok (JStr (metadata_webServerAddress d)).

(** The configuration file cannot be used: it is missing, it cannot be
    read, or its text is not JSON. *)
Definition config_unusable (env : Env) (path : string) : Prop :=
  existsSync env path = false
  \/ (exists e, readFileSync env path = Err e)
  \/ (exists text e, readFileSync env path = Ok text
                     /\ JSON_parse env text = Err e).

(** The configuration file parses to [null]: a document from which no
    address can be read. *)
Definition config_null (env : Env) (path : string) : Prop :=
  existsSync env path = true
  /\ exists text,
       readFileSync env path = Ok text /\ JSON_parse env text = Ok JNull.

(** The configuration file parses to a document other than [null] in
    which the address is absent or is the empty string. *)
Definition config_lacks_address (env : Env) (path : string) : Prop :=
  existsSync env path = true
  /\ exists text doc,
       readFileSync env path = Ok text
       /\ JSON_parse env text = Ok doc
       /\ doc <> JNull
       /\ (Js.get doc "ggEncryptedAddress" = Ok JUndefined
           \/ Js.get doc "ggEncryptedAddress" = Ok (JStr "")).

(** ** src/exceptions.ts: what an error object shows

    [name] is the name of the class ([this.constructor.name]) and [message]
    the string the constructor hands to [Error].  The numbers in a message
    are printed by the runtime: a volume by the number printer of the
    environment, a status code by [status], the same printer on the
    numbers that are status codes. *)

Definition name (e : SonarError) : string :=
  match e with
  | EnginePathNotFoundError => "EnginePathNotFoundError"
  | ServerNotAccessibleError _ => "ServerNotAccessibleError"
  | SonarNotEnabledError => "SonarNotEnabledError"
  | ServerNotReadyError => "ServerNotReadyError"
  | ServerNotRunningError => "ServerNotRunningError"
  | WebServerAddressNotFoundError => "WebServerAddressNotFoundError"
  | ChannelNotFoundError _ => "ChannelNotFoundError"
  | SliderNotFoundError _ => "SliderNotFoundError"
  | InvalidVolumeError _ => "InvalidVolumeError"
  | InvalidMixVolumeError _ => "InvalidMixVolumeError"
  end.

Definition message (env : Env) (status : Z -> string) (e : SonarError)
    : string :=
  match e with
  | EnginePathNotFoundError =>
      "SteelSeries Engine 3 not installed or not in the default location!"
  | ServerNotAccessibleError statusCode =>
      "SteelSeries server not accessible! Status code: " ++ status statusCode
  | SonarNotEnabledError => "SteelSeries Sonar is not enabled!"
  | ServerNotReadyError => "SteelSeries Sonar is not ready yet!"
  | ServerNotRunningError => "SteelSeries Sonar is not running!"
  | WebServerAddressNotFoundError => "Web server address not found"
  | ChannelNotFoundError channel => "Channel '" ++ channel ++ "' not found"
  | SliderNotFoundError slider => "Slider '" ++ slider ++ "' not found"
  | InvalidVolumeError volume =>
      "Invalid volume '" ++ Number_toString env volume
      ++ "'! Value must be between 0 and 1!"
  | InvalidMixVolumeError mixVolume =>
      "Invalid mix volume '" ++ Number_toString env mixVolume
      ++ "'! Value must be between -1 and 1!"
  end.

(** The HTTP method an operation uses when it sends a request. *)
Definition method_of (op : Operation) : Method :=
  match op with
  | IsStreamerMode | StreamerMode | GetVolumeData | GetChatMixData => GET
  | SetStreamerMode _ | SetVolume _ _ _ | MuteChannel _ _ _ | SetChatMix _ => PUT
  end.

(** ** Test doubles

    Environments in the manner of the repository's jest mocks: a
    configuration file with fixed content and its parsed document, a
    scripted server, and a number printer that is right on 0, 0.5 and 1,
    the only numbers that get printed below. *)

Definition print_sample (n : float) : string :=
  if PrimFloat.eqb n 0 then "0"
  else if PrimFloat.eqb n 0.5 then "0.5"
  else if PrimFloat.eqb n 1 then "1"
  else "NaN".

Definition mock (fileExists : bool) (file : Result string)
    (parsed : Result JsValue) (srv : list Request -> Request -> HttpOutcome)
    : Env :=
  {| os_platform := "linux";
     env_ProgramData := None;
     os_homedir := "/home/user";
     path_join := String.concat "/";
     existsSync := fun _ => fileExists;
     readFileSync := fun _ => file;
     JSON_parse := fun text =>
       match file with
       | Ok content =>
           if String.eqb text content then parsed else Err (External SyntaxError)
       | Err e => Err e
       end;
     Number_toString := print_sample;
     server := srv |}.

Definition quoted (s : string) : string :=
  String "034"%char (s ++ String "034"%char "").

Definition coreProps_text : string :=
  "{" ++ quoted "ggEncryptedAddress" ++ ": " ++ quoted "127.0.0.1:8080" ++ "}".

Definition coreProps : JsValue :=
  JObj [("ggEncryptedAddress", JStr "127.0.0.1:8080")].

Definition ready_descriptor : SubAppInfo :=
  {| isEnabled := true; isReady := true; isRunning := true;
     metadata_webServerAddress := "http://localhost:8081" |}.

(** A server that answers [/subApps] with [d], [/mode/] requests with
    [mode] and everything else with [other]. *)
Definition scripted (d : SubAppInfo) (mode : HttpOutcome) (other : HttpOutcome)
    : list Request -> Request -> HttpOutcome :=
  fun _ r =>
    if String.eqb (url r) "https://127.0.0.1:8080/subApps"
    then Resolved 200 (SubAppInfo_json d)
    else if String.eqb (url r) "https://undefined/subApps"
    then Resolved 200 (SubAppInfo_json d)
    else if String.prefix "http://localhost:8081/mode/" (url r)
    then mode
    else other.

(** The machine of the test suite: the configuration file is there, the
    service is up in classic mode and acknowledges every other request. *)
Definition env_ready : Env :=
  mock true (Ok coreProps_text) (Ok coreProps)
       (scripted ready_descriptor (Resolved 200 (JStr "classic"))
                 (Resolved 200 (JObj [("success", JBool true)]))).

Definition no_options : SonarOptions :=
  {| opt_appDataPath := None; opt_streamerMode := None |}.

Definition a_client (streamer : bool) : Sonar :=
  {| appDataPath := "/home/user/.local/share/SteelSeries Engine 3/coreProps.json";
     baseUrl := "https://127.0.0.1:8080";
     webServerAddress := JStr "http://localhost:8081";
     volumePath := path_of_mode streamer;
     _streamerMode := streamer |}.

(** A machine on which the configuration file is missing, and one on which
    it holds the empty JSON object. *)
Definition env_no_file : Env :=
  mock false (Err (External (SystemError "ENOENT")))
       (Err (External SyntaxError))
       (scripted ready_descriptor (Resolved 200 (JStr "classic"))
                 (Rejected (AxiosError None))).

Definition env_empty_config : Env :=
  mock true (Ok "{}") (Ok (JObj []))
       (scripted ready_descriptor (Resolved 200 (JStr "classic"))
                 (Rejected (AxiosError None))).

(** The same machine with no host answering: every request is rejected
    without a response. *)
Definition env_empty_config_offline : Env :=
  mock true (Ok "{}") (Ok (JObj [])) (fun _ _ => Rejected (AxiosError None)).

(** A machine on which the configuration file holds the JSON text
    [null]. *)
Definition env_null_config : Env :=
  mock true (Ok "null") (Ok JNull)
       (scripted ready_descriptor (Resolved 200 (JStr "classic"))
                 (Rejected (AxiosError None))).

(** A machine whose configuration gives an object for the address, with a
    key [toString] in it. *)
Definition toString_config_text : string :=
  "{" ++ quoted "ggEncryptedAddress" ++ ": {" ++ quoted "toString" ++ ": 1}}".

Definition toString_config : JsValue :=
  JObj [("ggEncryptedAddress", JObj [("toString", JNum 1)])].

Definition env_toString_config : Env :=
  mock true (Ok toString_config_text) (Ok toString_config)
       (scripted ready_descriptor (Resolved 200 (JStr "classic"))
                 (Rejected (AxiosError None))).

(** The control plane of the test suite's second case: the service is
    disabled, though ready and running. *)
Definition disabled_descriptor : SubAppInfo :=
  {| isEnabled := false; isReady := true; isRunning := true;
     metadata_webServerAddress := "http://localhost:8081" |}.

Definition env_disabled : Env :=
  mock true (Ok coreProps_text) (Ok coreProps)
       (scripted disabled_descriptor (Resolved 200 (JStr "classic"))
                 (Resolved 200 (JObj []))).

(** The service of the test suite, in streamer mode. *)
Definition env_stream : Env :=
  mock true (Ok coreProps_text) (Ok coreProps)
       (scripted ready_descriptor (Resolved 200 (JStr "stream"))
                 (Resolved 200 (JObj []))).



(** A control plane address behind which another program answers: every
    request gets a 200 page of text. *)
Definition env_other_service : Env :=
  mock true (Ok coreProps_text) (Ok coreProps)
       (fun _ _ => Resolved 200 (JStr "<html></html>")).

(** * Properties *)

(** ** How each method runs

    One equation per method: which request it sends, if any, and how the
    answer becomes its result. *)

Ltac run_monad :=
  cbv [bind ret throw try_catch lift self assign httpClient rethrow sent
       streamerMode];
  cbn [this log fst snd].

Ltac split_answer :=
  repeat match goal with
    | |- context [server ?e ?l ?r] =>
        let E := fresh "Eo" in
        destruct (server e l r) as [? ?|[[?|]| | |?]] eqn:E; cbn [fst snd surfaced]
    | |- context [?s =? 200] =>
        let E := fresh "Es" in destruct (s =? 200) eqn:E; cbn [negb]
    end.

Lemma get_error (v : JsValue) (k : string) (e : JsError) :
  Js.get v k = Err e -> e = External TypeError.
Proof. destruct v; cbn; congruence. Qed.

Section Runs.

Variable env : Env.

Lemma getVolumeData_run (st : State) :
  getVolumeData env st
  = answered env GET (interpolate env (webServerAddress (this st))
                  ++ volumePath (this st)) st.
Proof.
  unfold getVolumeData, answered. run_monad. split_answer; reflexivity.
Qed.

Lemma getChatMixData_run (st : State) :
  getChatMixData env st
  = answered env GET (interpolate env (webServerAddress (this st)) ++ "/chatMix") st.
Proof.
  unfold getChatMixData, answered. run_monad. split_answer; reflexivity.
Qed.

Lemma setChatMix_run (mixVolume : float) (st : State) :
  setChatMix env mixVolume st
  = if PrimFloat.ltb mixVolume (-1) || PrimFloat.ltb 1 mixVolume
    then (Err (Thrown (InvalidMixVolumeError mixVolume)), st)
    else answered env PUT (interpolate env (webServerAddress (this st))
                       ++ "/chatMix?balance=" ++ JSON_stringify env mixVolume) st.
Proof.
  unfold setChatMix, answered. run_monad.
  destruct (_ || _); [reflexivity|]. split_answer; reflexivity.
Qed.

Lemma setVolume_run (channel : string) (volume : float)
    (streamerSlider : option string) (st : State) :
  setVolume env channel volume streamerSlider st
  = let slider := slider_or_default streamerSlider in
    if negb (includes CHANNEL_NAMES channel)
    then (Err (Thrown (ChannelNotFoundError channel)), st)
    else if _streamerMode (this st) && negb (includes STREAMER_SLIDER_NAMES slider)
    then (Err (Thrown (SliderNotFoundError slider)), st)
    else if PrimFloat.ltb volume 0 || PrimFloat.ltb 1 volume
    then (Err (Thrown (InvalidVolumeError volume)), st)
    else answered env PUT (interpolate env (webServerAddress (this st))
                       ++ fullVolumePath (this st) slider ++ "/" ++ channel
                       ++ "/Volume/" ++ JSON_stringify env volume) st.
Proof.
  unfold setVolume, answered, fullVolumePath, slider_or_default. run_monad.
  destruct (negb (includes CHANNEL_NAMES channel)); [reflexivity|].
  destruct (_ && _); [reflexivity|].
  destruct (_ || _); [reflexivity|].
  split_answer; reflexivity.
Qed.

Lemma muteChannel_run (channel : string) (muted : bool)
    (streamerSlider : option string) (st : State) :
  muteChannel env channel muted streamerSlider st
  = let slider := slider_or_default streamerSlider in
    if negb (includes CHANNEL_NAMES channel)
    then (Err (Thrown (ChannelNotFoundError channel)), st)
    else if _streamerMode (this st) && negb (includes STREAMER_SLIDER_NAMES slider)
    then (Err (Thrown (SliderNotFoundError slider)), st)
    else answered env PUT (interpolate env (webServerAddress (this st))
                       ++ fullVolumePath (this st) slider ++ "/" ++ channel ++ "/"
                       ++ (if _streamerMode (this st) then "isMuted" else "Mute")
                       ++ "/" ++ Js.of_bool muted) st.
Proof.
  unfold muteChannel, answered, fullVolumePath, slider_or_default. run_monad.
  destruct (negb (includes CHANNEL_NAMES channel)); [reflexivity|].
  destruct (_ && _); [reflexivity|].
  split_answer; reflexivity.
Qed.

Lemma isStreamerMode_run (st : State) :
  isStreamerMode env st
  = let u := interpolate env (webServerAddress (this st)) ++ "/mode/" in
    (match surfaced (server env (log st) {| method := GET; url := u |}) with
     | Ok data => Ok (Js.is_string data "stream")
     | Err e => Err e
     end, sent GET u st).
Proof.
  unfold isStreamerMode. run_monad. split_answer; reflexivity.
Qed.

Lemma setStreamerMode_run (streamerMode : bool) (st : State) :
  setStreamerMode env streamerMode st
  = let u := interpolate env (webServerAddress (this st)) ++ "/mode/"
             ++ (if streamerMode then "stream" else "classic") in
    match surfaced (server env (log st) {| method := PUT; url := u |}) with
    | Ok data =>
        let flag := Js.is_string data "stream" in
        (Ok flag,
         {| this := set_volumePath (path_of_mode flag)
                      (set_streamerMode flag (this st));
            log := log st ++ [{| method := PUT; url := u |}] |})
    | Err e => (Err e, sent PUT u st)
    end.
Proof.
  unfold setStreamerMode. run_monad. split_answer; reflexivity.
Qed.

(** [loadBaseUrl] sends nothing, fails in one way only, and otherwise
    stores a base URL. *)
Lemma loadBaseUrl_run (st : State) :
  loadBaseUrl env st
  = if negb (existsSync env (appDataPath (this st)))
    then (Err (Thrown EnginePathNotFoundError), st)
    else
      match readFileSync env (appDataPath (this st)) with
      | Err _ => (Err (Thrown EnginePathNotFoundError), st)
      | Ok fileContent =>
          match JSON_parse env fileContent with
          | Err _ => (Err (Thrown EnginePathNotFoundError), st)
          | Ok commonAppData =>
              match Js.get commonAppData "ggEncryptedAddress" with
              | Err _ => (Err (Thrown EnginePathNotFoundError), st)
              | Ok ggEncryptedAddress =>
                  match template env ggEncryptedAddress with
                  | Err _ => (Err (Thrown EnginePathNotFoundError), st)
                  | Ok address =>
                      (Ok tt,
                       {| this := set_baseUrl ("https://" ++ address) (this st);
                          log := log st |})
                  end
              end
          end
      end.
Proof.
  unfold loadBaseUrl. run_monad.
  destruct (negb _); [reflexivity|].
  destruct (readFileSync _ _); [|reflexivity].
  destruct (JSON_parse _ _); [|reflexivity].
  destruct (Js.get _ _); [|reflexivity].
  destruct (template _ _); reflexivity.
Qed.

Lemma loadBaseUrl_cases (st : State) :
  loadBaseUrl env st = (Err (Thrown EnginePathNotFoundError), st)
  \/ exists u, loadBaseUrl env st
               = (Ok tt, {| this := set_baseUrl u (this st); log := log st |}).
Proof.
  rewrite loadBaseUrl_run.
  destruct (negb _); [now left|].
  destruct (readFileSync _ _); [|now left].
  destruct (JSON_parse _ _); [|now left].
  destruct (Js.get _ _); [|now left].
  destruct (template _ _); [|now left].
  right. eexists. reflexivity.
Qed.

(** [loadServerAddress] sends exactly the [/subApps] request. *)
Lemma loadServerAddress_log (st : State) :
  log (snd (loadServerAddress env st))
  = (log st ++ [{| method := GET; url := baseUrl (this st) ++ "/subApps" |}])%list.
Proof.
  unfold loadServerAddress. run_monad.
  split_answer; try reflexivity.
  repeat match goal with
         | |- context [Js.get ?v ?k] =>
             destruct (Js.get v k) as [?|[?|[[?|]| | |?]]]; try reflexivity
         | |- context [negb (Js.truthy ?v)] =>
             destruct (negb (Js.truthy v)); try reflexivity
         end.
  cbn [this webServerAddress set_webServerAddress].
  match goal with |- context [if ?c then _ else _] => destruct c end;
    reflexivity.
Qed.


(** The factory, stage by stage. *)
Lemma create_run (options : SonarOptions) (log0 : list Request) :
  create env options log0
  = match loadBaseUrl env {| this := constructor env options; log := log0 |} with
    | (Err e, st1) => (Err e, log st1)
    | (Ok _, st1) =>
        match loadServerAddress env st1 with
        | (Err e, st2) => (Err e, log st2)
        | (Ok _, st2) =>
            match opt_streamerMode options with
            | Some _ => (Ok (this st2), log st2)
            | None =>
                match isStreamerMode env st2 with
                | (Ok true, st3) =>
                    (Ok (set_volumePath STREAMER_VOLUME_PATH
                           (set_streamerMode true (this st3))), log st3)
                | (Ok false, st3) | (Err _, st3) =>
                    (Ok (set_streamerMode false (this st3)), log st3)
                end
            end
        end
    end.
Proof.
  unfold create. cbv [bind].
  destruct (loadBaseUrl env _) as [[[]|e1] st1]; [|reflexivity].
  destruct (loadServerAddress env st1) as [[[]|e2] st2]; [|reflexivity].
  destruct (opt_streamerMode options); [reflexivity|].
  cbv [try_catch bind].
  destruct (isStreamerMode env st2) as [[[|]|e3] st3]; reflexivity.
Qed.

End Runs.

(** ** Construction and the configuration file *)

Section Configuration.

Variable env : Env.

(** Once the base URL is stored, nothing fails as a missing configuration
    any more. *)
Lemma loadServerAddress_not_config (st : State) :
  fst (loadServerAddress env st) <> Err (Thrown EnginePathNotFoundError).
Proof.
  unfold loadServerAddress. run_monad.
  split_answer; try (cbn [fst]; discriminate).
  repeat match goal with
         | |- context [Js.get ?v ?k] =>
             let E := fresh "Eg" in
             destruct (Js.get v k) as [?|[?|[[?|]| | |?]]] eqn:E;
             try (cbn [fst]; discriminate);
             try (apply get_error in E; discriminate E)
         | |- context [negb (Js.truthy ?v)] =>
             destruct (negb (Js.truthy v)); try (cbn [fst]; discriminate)
         end.
  cbn [this webServerAddress set_webServerAddress].
  match goal with |- context [if ?c then _ else _] => destruct c end;
    cbn [fst]; discriminate.
Qed.

(** C1 (as amended): construction fails with [EnginePathNotFoundError],
    before any request is sent and whatever the server would answer, when
    the configuration file is missing, cannot be read or is not JSON, and
    also when it parses to [null].  A configuration that parses to a
    document other than [null] whose address is absent or empty is not
    rejected: the [/subApps] request is sent to the base URL built from it,
    and whatever construction then does, it does not fail with
    [EnginePathNotFoundError]. *)
Theorem create_configuration (options : SonarOptions) (log0 : list Request) :
  let path := appDataPath (constructor env options) in
  (config_unusable env path \/ config_null env path ->
   create env options log0 = (Err (Thrown EnginePathNotFoundError), log0))
  /\ (config_lacks_address env path ->
      fst (create env options log0) <> Err (Thrown EnginePathNotFoundError)
      /\ exists base rest,
           (base = "https://undefined" \/ base = "https://")
           /\ snd (create env options log0)
              = (log0 ++ {| method := GET; url := base ++ "/subApps" |} :: rest)%list).
Proof.
  intros path. subst path. rewrite create_run, loadBaseUrl_run.
  cbn [this log]. split.
  - intros [[H|[[e H]|[text [e [H1 H2]]]]]|[Hex [text [H1 H2]]]].
    + rewrite H. reflexivity.
    + rewrite H. destruct (negb _); reflexivity.
    + rewrite H1, H2. destruct (negb _); reflexivity.
    + rewrite Hex, H1, H2. reflexivity.
  - intros [Hex [text [doc [H1 [H2 [_ H3]]]]]].
    rewrite Hex, H1, H2. cbn [negb].
    assert (exists a address,
               Js.get doc "ggEncryptedAddress" = Ok a
               /\ template env a = Ok address
               /\ ("https://" ++ address = "https://undefined"
                   \/ "https://" ++ address = "https://"))
      as [a [address [Ha [Hb Hbase]]]].
    { destruct H3 as [H3|H3]; rewrite H3; eexists; eexists;
        (split; [reflexivity|split; [reflexivity|cbn; tauto]]). }
    rewrite Ha, Hb.
    set (base := "https://" ++ address) in *.
    set (st1 := {| this := set_baseUrl base _; log := log0 |}).
    pose proof (loadServerAddress_not_config st1) as Hne.
    pose proof (loadServerAddress_log env st1) as Hlog.
    destruct (loadServerAddress env st1) as [[[]|e2] st2];
      cbn [fst snd] in Hne, Hlog.
    + destruct (opt_streamerMode options).
      * split; [discriminate|]. exists base, []. split; [exact Hbase|].
        cbn [snd]. exact Hlog.
      * rewrite isStreamerMode_run. cbn zeta.
        split.
        { destruct (surfaced _) as [d|]; [destruct (Js.is_string d "stream")|];
            cbn [fst]; discriminate. }
        exists base. eexists. split; [exact Hbase|].
        destruct (surfaced _) as [d|]; [destruct (Js.is_string d "stream")|];
          cbn [snd sent log]; rewrite Hlog; rewrite <- app_assoc; reflexivity.
    + split.
      { cbn [fst]. intros Hc. apply Hne. congruence. }
      exists base, []. split; [exact Hbase|].
      cbn [snd]. exact Hlog.
Qed.

End Configuration.

Lemma create_configuration_witness :
  create env_no_file no_options [] = (Err (Thrown EnginePathNotFoundError), [])
  /\ create env_null_config no_options []
     = (Err (Thrown EnginePathNotFoundError), [])
  /\ fst (create env_empty_config no_options [])
     <> Err (Thrown EnginePathNotFoundError).
Proof.
  split; [|split].
  - apply (proj1 (create_configuration env_no_file no_options [])).
    left. left. reflexivity.
  - apply (proj1 (create_configuration env_null_config no_options [])).
    right. split; [reflexivity|]. exists "null". split; reflexivity.
  - apply (proj2 (create_configuration env_empty_config no_options [])).
    split; [reflexivity|].
    exists "{}", (JObj []). repeat split; [discriminate|]. left. reflexivity.
Defined.

(** C1 (as stated) fails: with the file [{}], whose parsed content has no
    address at all, construction does not fail with
    [EnginePathNotFoundError] before any request.  It sends a request to
    [https://undefined/subApps]: when no host answers, it fails with the
    transport's error; when one does, it goes on and succeeds. *)
Lemma create_accepts_missing_address :
  config_lacks_address env_empty_config_offline
    (appDataPath (constructor env_empty_config_offline no_options))
  /\ create env_empty_config_offline no_options []
     = (Err (External (AxiosError None)),
        [{| method := GET; url := "https://undefined/subApps" |}])
  /\ create env_empty_config_offline no_options []
     <> (Err (Thrown EnginePathNotFoundError), [])
  /\ config_lacks_address env_empty_config
       (appDataPath (constructor env_empty_config no_options))
  /\ create env_empty_config no_options []
     = (Ok {| appDataPath :=
                "/home/user/.local/share/SteelSeries Engine 3/coreProps.json";
              baseUrl := "https://undefined";
              webServerAddress := JStr "http://localhost:8081";
              volumePath := "/volumeSettings/classic";
              _streamerMode := false |},
        [{| method := GET; url := "https://undefined/subApps" |};
         {| method := GET; url := "http://localhost:8081/mode/" |}]).
Proof.
  assert (forall srv,
             config_lacks_address (mock true (Ok "{}") (Ok (JObj [])) srv)
               "/home/user/.local/share/SteelSeries Engine 3/coreProps.json")
    as Hlacks.
  { intros srv. split; [reflexivity|].
    exists "{}", (JObj []). repeat split; [discriminate|]. left. reflexivity. }
  split; [apply Hlacks|].
  split; [vm_compute; reflexivity|].
  split; [vm_compute; discriminate|].
  split; [apply Hlacks|].
  vm_compute. reflexivity.
Qed.

(** ** Address resolution *)

Lemma SubAppInfo_json_describes (d : SubAppInfo) :
  describes (SubAppInfo_json d) d.
Proof.
  unfold describes, SubAppInfo_json.
  do 3 eexists. cbn. repeat split.
Qed.

Section Resolution.

Variable env : Env.

(** C2: when [/subApps] answers 200 with a document that holds a service
    descriptor, the flags are tested in the order enabled, ready, running,
    and the first one that is false decides the error, whatever the later
    ones are; only when the three are true is the address looked at, and
    the lookup then fails with [WebServerAddressNotFoundError] exactly when
    the address is empty or the string "null", and otherwise succeeds and
    stores it. *)
Theorem loadServerAddress_order (st : State) (data : JsValue) (d : SubAppInfo) :
  server env (log st)
    {| method := GET; url := baseUrl (this st) ++ "/subApps" |}
  = Resolved 200 data ->
  describes data d ->
  let outcome := loadServerAddress env st in
  let address := metadata_webServerAddress d in
  (isEnabled d = false -> fst outcome = Err (Thrown SonarNotEnabledError))
  /\ (isEnabled d = true -> isReady d = false ->
      fst outcome = Err (Thrown ServerNotReadyError))
  /\ (isEnabled d = true -> isReady d = true -> isRunning d = false ->
      fst outcome = Err (Thrown ServerNotRunningError))
  /\ (isEnabled d = true -> isReady d = true -> isRunning d = true ->
      (fst outcome = Err (Thrown WebServerAddressNotFoundError)
       <-> address = "" \/ address = "null")
      /\ (address <> "" -> address <> "null" ->
          fst outcome = Ok tt
          /\ webServerAddress (this (snd outcome)) = JStr address)).
Proof.
  intros H [subApps [sonarApp [metadata [H1 [H2 [H3 [H4 [H5 [H6 H7]]]]]]]]]
         outcome address.
  subst outcome address.
  unfold loadServerAddress. run_monad.
  rewrite H. cbn [fst snd Z.eqb Pos.eqb negb].
  rewrite H1, H2, H3, H4, H5, H6, H7.
  destruct d as [en rd rn addr]. cbn.
  repeat split; intros; subst; cbn in *;
    repeat match goal with
      | H : _ \/ _ |- _ => destruct H; subst; cbn
      | H : context [String.eqb ?a ?b] |- _ =>
          destruct (String.eqb_spec a b); cbn in H
      | |- context [String.eqb ?a ?b] =>
          destruct (String.eqb_spec a b); cbn
      end;
    try reflexivity; try congruence; try tauto.
Qed.

End Resolution.

Lemma loadServerAddress_order_witness :
  fst (loadServerAddress env_disabled {| this := a_client false; log := [] |})
  = Err (Thrown SonarNotEnabledError)
  /\ fst (loadServerAddress env_ready {| this := a_client false; log := [] |})
     = Ok tt.
Proof.
  split.
  - apply (proj1 (loadServerAddress_order env_disabled
                    {| this := a_client false; log := [] |}
                    (SubAppInfo_json disabled_descriptor) disabled_descriptor
                    eq_refl (SubAppInfo_json_describes disabled_descriptor))).
    reflexivity.
  - apply (proj2 (proj2 (proj2
             (loadServerAddress_order env_ready
                {| this := a_client false; log := [] |}
                (SubAppInfo_json ready_descriptor) ready_descriptor
                eq_refl (SubAppInfo_json_describes ready_descriptor)))));
      try reflexivity; discriminate.
Defined.

(** ** Volume and mute requests *)

Lemma includes_In (names : list string) (x : string) :
  includes names x = true <-> In x names.
Proof.
  unfold includes. rewrite existsb_exists. split.
  - intros [y [Hy Heq]]. apply String.eqb_eq in Heq. now subst.
  - intros H. exists x. split; [exact H|apply String.eqb_refl].
Qed.

Lemma includes_not_In (names : list string) (x : string) :
  includes names x = false <-> ~ In x names.
Proof.
  rewrite <- includes_In. destruct (includes names x); split; congruence.
Qed.

(** A surfaced answer is the server's data, a status, or the transport's
    own error: never one of the validation errors. *)
Lemma surfaced_cases (o : HttpOutcome) :
  (exists data, surfaced o = Ok data)
  \/ (exists status, surfaced o = Err (Thrown (ServerNotAccessibleError status)))
  \/ (exists e, surfaced o = Err (External e)).
Proof.
  destruct o as [status data|[[status|]| | |code]]; cbn.
  - destruct (status =? 200); eauto.
  - eauto.
  - eauto.
  - eauto.
  - eauto.
  - eauto.
Qed.

Section Volume.

Variable env : Env.


End Volume.



Section Validation.

Variable env : Env.



End Validation.



(** ** Failures of the server and of the transport *)

Section Failures.

Variable env : Env.



End Failures.


(** ** The mode flag and the volume path *)

Section Mode.

Variable env : Env.

(** [loadServerAddress] changes nothing of the object but the address. *)
Lemma loadServerAddress_this (st : State) :
  this (snd (loadServerAddress env st)) = this st
  \/ exists address,
       this (snd (loadServerAddress env st))
       = set_webServerAddress address (this st).
Proof.
  unfold loadServerAddress. run_monad.
  split_answer; try (left; reflexivity).
  repeat match goal with
         | |- context [Js.get ?v ?k] =>
             destruct (Js.get v k) as [?|[?|[[?|]| | |?]]];
             try (left; reflexivity)
         | |- context [negb (Js.truthy ?v)] =>
             destruct (negb (Js.truthy v)); try (left; reflexivity)
         end.
  all: cbn [this webServerAddress set_webServerAddress orb].
  all: repeat match goal with
         | |- context [if ?c then _ else _] => destruct c
         end.
  all: right; eexists; reflexivity.
Qed.





End Mode.



(** ** The factory and the mode *)

Section Factory.

Variable env : Env.

(** What the two resolution steps leave of the constructed object. *)
Lemma resolution_frame (options : SonarOptions) (log0 : list Request)
    (st1 st2 : State) (r : Result unit) :
  loadBaseUrl env {| this := constructor env options; log := log0 |}
  = (Ok tt, st1) ->
  loadServerAddress env st1 = (r, st2) ->
  _streamerMode (this st2) = _streamerMode (constructor env options)
  /\ volumePath (this st2) = volumePath (constructor env options)
  /\ baseUrl (this st2) = baseUrl (this st1)
  /\ log st1 = log0
  /\ log st2
     = (log0 ++ [{| method := GET; url := baseUrl (this st1) ++ "/subApps" |}])%list.
Proof.
  intros H1 H2.
  destruct (loadBaseUrl_cases env
              {| this := constructor env options; log := log0 |})
    as [E|[u E]]; rewrite E in H1; [discriminate|].
  injection H1 as <-.
  pose proof (loadServerAddress_this env
                {| this := set_baseUrl u (constructor env options);
                   log := log0 |}) as Hthis.
  pose proof (loadServerAddress_log env
                {| this := set_baseUrl u (constructor env options);
                   log := log0 |}) as Hlog.
  cbn [this log] in *. rewrite H2 in Hthis, Hlog. cbn [snd] in Hthis, Hlog.
  repeat split; try exact Hlog;
    destruct Hthis as [->|[a ->]]; reflexivity.
Qed.


End Factory.


(** C10: with an explicit [streamerMode] option the factory sends no mode
    request: it sends nothing at all when the configuration cannot be
    used, and the [/subApps] request alone otherwise; the object it returns
    has the flag of the option and the path that goes with it, whatever the
    mode of the server.  The flag can so differ from the server's mode. *)
Theorem explicit_mode_adopted :
  (forall env options b log0,
      opt_streamerMode options = Some b ->
      let outcome := create env options log0 in
      (snd outcome = log0
       \/ exists base,
            snd outcome
            = (log0 ++ [{| method := GET; url := base ++ "/subApps" |}])%list)
      /\ forall sonar,
           fst outcome = Ok sonar ->
           _streamerMode sonar = b
           /\ volumePath sonar = path_of_mode b
           /\ snd outcome
              = (log0 ++ [{| method := GET;
                             url := baseUrl sonar ++ "/subApps" |}])%list)
  /\ exists env options sonar log1,
       opt_streamerMode options = Some false
       /\ create env options [] = (Ok sonar, log1)
       /\ _streamerMode sonar = false
       /\ fst (isStreamerMode env {| this := sonar; log := log1 |}) = Ok true.
Proof.
  split.
  - intros env options b log0 Hopt outcome. subst outcome.
    rewrite create_run.
    set (st0 := {| this := constructor env options; log := log0 |}).
    destruct (loadBaseUrl env st0) as [[[]|e1] st1] eqn:H1.
    + destruct (loadServerAddress env st1) as [r2 st2] eqn:H2.
      destruct (resolution_frame env options log0 st1 st2 r2 H1 H2)
        as [Hm [Hp [Hb [_ Hlog]]]].
      unfold constructor in Hm, Hp. rewrite Hopt in Hm, Hp. cbn in Hm, Hp.
      destruct r2 as [[]|e2]; rewrite ?Hopt; cbn [fst snd].
      * split; [right; eexists; exact Hlog|].
        intros sonar [= <-]. rewrite Hm, Hp, Hb.
        split; [reflexivity|]. split; [reflexivity|exact Hlog].
      * split; [right; eexists; exact Hlog|]. discriminate.
    + destruct (loadBaseUrl_cases env st0) as [E|[u E]];
        rewrite E in H1; [|discriminate].
      injection H1 as <- <-. cbn [fst snd log st0].
      split; [left; reflexivity|discriminate].
  - exists env_stream,
           {| opt_appDataPath := None; opt_streamerMode := Some false |}.
    eexists. eexists. repeat split.
Qed.

Lemma explicit_mode_adopted_witness :
  let options := {| opt_appDataPath := None; opt_streamerMode := Some true |} in
  volumePath (a_client true) = STREAMER_VOLUME_PATH
  /\ snd (create env_ready options [])
     = [{| method := GET; url := "https://127.0.0.1:8080/subApps" |}].
Proof.
  exact (proj2 (proj2 (proj1 explicit_mode_adopted env_ready
                         {| opt_appDataPath := None;
                            opt_streamerMode := Some true |}
                         true [] eq_refl)
                  (a_client true) eq_refl)).
Defined.

(** ** The test suite, replayed

    The cases of [src/__tests__/sonar.test.ts] on the embedding, with the
    mocks of the suite as environments, and the URL shapes the
    documentation gives for [muteChannel]. *)

Example test_create_successfully :
  create env_ready no_options []
  = (Ok (a_client false),
     [{| method := GET; url := "https://127.0.0.1:8080/subApps" |};
      {| method := GET; url := "http://localhost:8081/mode/" |}]).
Proof. vm_compute. reflexivity. Qed.

Example test_create_path_does_not_exist :
  create env_no_file no_options []
  = (Err (Thrown EnginePathNotFoundError), []).
Proof. vm_compute. reflexivity. Qed.

Example test_create_not_enabled :
  fst (create env_disabled no_options []) = Err (Thrown SonarNotEnabledError).
Proof. vm_compute. reflexivity. Qed.

Example test_setVolume_successfully :
  setVolume env_ready "master" 0.5 None {| this := a_client false; log := [] |}
  = (Ok (JObj [("success", JBool true)]),
     sent PUT "http://localhost:8081/volumeSettings/classic/master/Volume/0.5"
       {| this := a_client false; log := [] |}).
Proof. vm_compute. reflexivity. Qed.

Example test_setVolume_invalid_channel :
  setVolume env_ready "invalid" 0.5 None {| this := a_client false; log := [] |}
  = (Err (Thrown (ChannelNotFoundError "invalid")),
     {| this := a_client false; log := [] |}).
Proof. vm_compute. reflexivity. Qed.

Example test_setVolume_invalid_volume :
  setVolume env_ready "master" 1.5 None {| this := a_client false; log := [] |}
  = (Err (Thrown (InvalidVolumeError 1.5)),
     {| this := a_client false; log := [] |}).
Proof. vm_compute. reflexivity. Qed.

Example test_setChatMix_successfully :
  log (snd (setChatMix env_ready 0.5 {| this := a_client false; log := [] |}))
  = [{| method := PUT; url := "http://localhost:8081/chatMix?balance=0.5" |}].
Proof. vm_compute. reflexivity. Qed.

Example test_setChatMix_invalid_mix_volume :
  setChatMix env_ready 1.5 {| this := a_client false; log := [] |}
  = (Err (Thrown (InvalidMixVolumeError 1.5)),
     {| this := a_client false; log := [] |}).
Proof. vm_compute. reflexivity. Qed.

Example muteChannel_classic_url :
  log (snd (muteChannel env_ready "game" true None
              {| this := a_client false; log := [] |}))
  = [{| method := PUT;
        url := "http://localhost:8081/volumeSettings/classic/game/Mute/true" |}].
Proof. vm_compute. reflexivity. Qed.

Example muteChannel_streamer_url :
  log (snd (muteChannel env_ready "game" true (Some "monitoring")
              {| this := a_client true; log := [] |}))
  = [{| method := PUT;
        url := "http://localhost:8081/volumeSettings/streamer/monitoring/game/isMuted/true" |}].
Proof. vm_compute. reflexivity. Qed.

(** [NaN] is neither below 0 nor above 1: it passes the test of
    [setVolume], and [JSON.stringify] prints it [null]. *)
Example setVolume_nan :
  log (snd (setVolume env_ready "master" nan None
              {| this := a_client false; log := [] |}))
  = [{| method := PUT;
        url := "http://localhost:8081/volumeSettings/classic/master/Volume/null" |}].
Proof. vm_compute. reflexivity. Qed.

(** * Further properties of the client *)


Lemma answered_not_validation (env : Env) (m : Method) (u : string)
    (st : State) (e : SonarError) :
  fst (answered env m u st) = Err (Thrown e) ->
  exists status, e = ServerNotAccessibleError status.
Proof.
  unfold answered. cbn [fst].
  destruct (surfaced_cases (server env (log st) {| method := m; url := u |}))
    as [[d Hd]|[[c Hc]|[x Hx]]]; rewrite ?Hd, ?Hc, ?Hx; intros H;
    try discriminate H.
  injection H as <-. eauto.
Qed.

Section ChannelsAndMix.

Variable env : Env.

(** X1: a channel that is not one of the six makes [setVolume] and
    [muteChannel] fail with [ChannelNotFoundError] carrying it, before the
    slider and the volume are looked at and without a request; and these
    methods fail with that error for no other reason. *)
Theorem channel_validation (st : State) (channel : string) (volume : float)
    (muted : bool) (streamerSlider : option string) :
  let v := setVolume env channel volume streamerSlider st in
  let m := muteChannel env channel muted streamerSlider st in
  (~ In channel CHANNEL_NAMES ->
   v = (Err (Thrown (ChannelNotFoundError channel)), st)
   /\ m = (Err (Thrown (ChannelNotFoundError channel)), st))
  /\ (forall c, fst v = Err (Thrown (ChannelNotFoundError c)) ->
                ~ In channel CHANNEL_NAMES /\ c = channel)
  /\ (forall c, fst m = Err (Thrown (ChannelNotFoundError c)) ->
                ~ In channel CHANNEL_NAMES /\ c = channel).
Proof.
  intros v m. subst v m. rewrite setVolume_run, muteChannel_run. cbv zeta.
  destruct (includes CHANNEL_NAMES channel) eqn:Hch; cbn [negb].
  - apply includes_In in Hch. split; [tauto|].
    split; intros c H; exfalso.
    + destruct (_ && _); [discriminate H|].
      destruct (_ || _); [discriminate H|].
      apply answered_not_validation in H as [status H]. discriminate H.
    + destruct (_ && _); [discriminate H|].
      apply answered_not_validation in H as [status H]. discriminate H.
  - apply includes_not_In in Hch. cbn [fst].
    split; [split; reflexivity|].
    split; intros c [= <-]; tauto.
Qed.




End ChannelsAndMix.

(** ** The range tests, number by number

    A number is a NaN, an infinity, a zero or a finite number with a sign,
    a mantissa and an exponent; the comparisons are those of IEEE 754. *)




Section RangeTests.

Variable env : Env.



End RangeTests.

(** ** What operations touch and send *)

Section Footprint.

Variable env : Env.

(** X7: no operation changes the configuration path, the base URL or
    the service address of the object; only [setStreamerMode] changes
    anything at all, and an operation that fails changes nothing. *)
Theorem operations_frame (op : Operation) (st : State) :
  let st' := snd (call env op st) in
  appDataPath (this st') = appDataPath (this st)
  /\ baseUrl (this st') = baseUrl (this st)
  /\ webServerAddress (this st') = webServerAddress (this st)
  /\ ((forall b, op <> SetStreamerMode b) -> this st' = this st)
  /\ (forall e, fst (call env op st) = Err e -> this st' = this st).
Proof.
  destruct op as [|b| | |channel volume slider|channel muted slider| |mixVolume];
    cbn [call]; cbv zeta.
  - unfold bind. rewrite isStreamerMode_run. cbv zeta.
    destruct (surfaced _); repeat split.
  - unfold bind. rewrite setStreamerMode_run. cbv zeta.
    destruct (surfaced _) as [data|e]; cbn [fst snd ret this sent].
    + repeat split; try discriminate.
      intros H. exfalso. exact (H b eq_refl).
    + repeat split.
  - repeat split.
  - rewrite getVolumeData_run. repeat split.
  - rewrite setVolume_run. cbv zeta.
    destruct (negb _); [repeat split|].
    destruct (_ && _); [repeat split|].
    destruct (_ || _); repeat split.
  - rewrite muteChannel_run. cbv zeta.
    destruct (negb _); [repeat split|].
    destruct (_ && _); repeat split.
  - rewrite getChatMixData_run. repeat split.
  - rewrite setChatMix_run. destruct (_ || _); repeat split.
Qed.

(** X8: an operation sends at most one request, after the requests
    already made; the request goes to the service address and to no other
    host, with GET for the three reads and PUT for the four writes; the
    getter [streamerMode] sends nothing. *)
Theorem operation_requests (op : Operation) (st : State) :
  let st' := snd (call env op st) in
  (log st' = log st
   \/ exists path,
        log st'
        = (log st
           ++ [{| method := method_of op;
                  url := interpolate env (webServerAddress (this st))
                         ++ path |}])%list)
  /\ (op = StreamerMode -> st' = st).
Proof.
  destruct op as [|b| | |channel volume slider|channel muted slider| |mixVolume];
    cbn [call method_of]; cbv zeta; (split; [|try discriminate]).
  - right. unfold bind. rewrite isStreamerMode_run. cbv zeta.
    eexists. destruct (surfaced _); reflexivity.
  - right. unfold bind. rewrite setStreamerMode_run. cbv zeta.
    eexists. destruct (surfaced _); reflexivity.
  - left. reflexivity.
  - reflexivity.
  - right. rewrite getVolumeData_run. eexists. reflexivity.
  - rewrite setVolume_run. cbv zeta.
    destruct (negb _); [left; reflexivity|].
    destruct (_ && _); [left; reflexivity|].
    destruct (_ || _); [left; reflexivity|].
    right. eexists. reflexivity.
  - rewrite muteChannel_run. cbv zeta.
    destruct (negb _); [left; reflexivity|].
    destruct (_ && _); [left; reflexivity|].
    right. eexists. reflexivity.
  - right. rewrite getChatMixData_run. eexists. reflexivity.
  - rewrite setChatMix_run.
    destruct (_ || _); [left; reflexivity|].
    right. eexists. reflexivity.
Qed.

End Footprint.

(** ** What the factory guarantees *)

Section Construction.

Variable env : Env.


(** A lookup fails with one of its five errors or with an error from
    outside the library. *)
Lemma loadServerAddress_errors (st st2 : State) (e : JsError) :
  loadServerAddress env st = (Err e, st2) ->
  match e with
  | Thrown (ServerNotAccessibleError _) | Thrown SonarNotEnabledError
  | Thrown ServerNotReadyError | Thrown ServerNotRunningError
  | Thrown WebServerAddressNotFoundError | External _ => True
  | _ => False
  end.
Proof.
  unfold loadServerAddress. run_monad.
  split_answer; try (intros [= <- _]; exact I).
  repeat match goal with
         | |- context [Js.get ?v ?k] =>
             destruct (Js.get v k) as [?|[?|[[?|]| | |?]]] eqn:?;
             try (intros [= <- _]; exact I);
             try match goal with
                 | H : Js.get _ _ = Err _ |- _ =>
                     apply get_error in H; discriminate H
                 end
         | |- context [negb (Js.truthy ?v)] =>
             destruct (negb (Js.truthy v)); try (intros [= <- _]; exact I)
         end.
  all: cbn [this webServerAddress set_webServerAddress orb].
  all: repeat match goal with
         | |- context [if ?c then _ else _] => destruct c
         end.
  all: try (intros [= <- _]; exact I); try discriminate.
Qed.


(** X10: the factory fails with [EnginePathNotFoundError] exactly when
    it fails without having sent anything; a failure after that has sent
    the [/subApps] GET alone, so a failed construction never reaches the
    mode probe.  The factory never fails with one of the four errors of
    argument validation. *)
Theorem create_errors (options : SonarOptions) (log0 log1 : list Request)
    (e : JsError) :
  create env options log0 = (Err e, log1) ->
  (e = Thrown EnginePathNotFoundError <-> log1 = log0)
  /\ (log1 = log0
      \/ exists base,
           log1
           = (log0 ++ [{| method := GET; url := base ++ "/subApps" |}])%list)
  /\ match e with
     | Thrown (ChannelNotFoundError _) | Thrown (SliderNotFoundError _)
     | Thrown (InvalidVolumeError _) | Thrown (InvalidMixVolumeError _) => False
     | _ => True
     end.
Proof.
  rewrite create_run.
  set (st0 := {| this := constructor env options; log := log0 |}).
  destruct (loadBaseUrl_cases env st0) as [->|[u ->]].
  - intros [= <- <-]. cbn. repeat split. left. reflexivity.
  - set (st1 := {| this := set_baseUrl u (this st0); log := log st0 |}).
    pose proof (loadServerAddress_log env st1) as Hlog.
    pose proof (loadServerAddress_not_config env st1) as Hne.
    destruct (loadServerAddress env st1) as [[[]|e2] st2] eqn:H2.
    + destruct (opt_streamerMode options); [discriminate|].
      destruct (isStreamerMode env st2) as [[[|]|] ?]; discriminate.
    + intros [= <- <-]. cbn [snd fst] in Hlog, Hne.
      apply loadServerAddress_errors in H2.
      split; [|split].
      * split.
        -- intros ->. exfalso. apply Hne. reflexivity.
        -- intros H. exfalso. rewrite Hlog in H. cbn [log st1 st0] in H.
           apply (f_equal (@List.length Request)) in H.
           rewrite length_app in H. cbn in H. lia.
      * right. eexists. exact Hlog.
      * destruct e2 as [[| | | | | | | | |]|]; tauto.
Qed.

End Construction.

(** ** Documents of another shape *)

Section Documents.

Variable env : Env.

(** X11: when the configuration file is there and parses, [loadBaseUrl]
    rejects the document [null] as it rejects a missing file.  For an
    object it converts the address to a string the way a template literal
    does and stores [https://] followed by it: a string as it is, a
    missing address as [undefined]; when the conversion throws, as it
    does for an address that is an object with an own [toString]
    property, the document is rejected.  A document that is neither
    [null] nor an object gives [https://undefined].  Nothing is sent and
    nothing else is changed. *)
Theorem loadBaseUrl_documents (st : State) (text : string) (doc : JsValue) :
  existsSync env (appDataPath (this st)) = true ->
  readFileSync env (appDataPath (this st)) = Ok text ->
  JSON_parse env text = Ok doc ->
  let stored (address : string) :=
    (Ok tt, {| this := set_baseUrl ("https://" ++ address) (this st);
               log := log st |}) in
  let rejected := (@Err unit (Thrown EnginePathNotFoundError), st) in
  match doc with
  | JNull | JUndefined => loadBaseUrl env st = rejected
  | JObj fields =>
      let address := Js.lookup "ggEncryptedAddress" fields in
      loadBaseUrl env st
      = match template env address with
        | Ok converted => stored converted
        | Err _ => rejected
        end
      /\ (forall a, address = JStr a -> loadBaseUrl env st = stored a)
      /\ (address = JUndefined -> loadBaseUrl env st = stored "undefined")
      /\ (forall inner,
             address = JObj inner -> Js.has_own "toString" inner = true ->
             loadBaseUrl env st = rejected)
      /\ (forall inner,
             address = JObj inner -> Js.has_own "toString" inner = false ->
             loadBaseUrl env st = stored "[object Object]")
  | _ => loadBaseUrl env st = stored "undefined"
  end.
Proof.
  intros Hex Hread Hparse stored rejected. subst stored rejected.
  rewrite loadBaseUrl_run, Hex, Hread, Hparse. cbn [negb].
  destruct doc; cbn [Js.get]; try reflexivity.
  cbv zeta. split; [reflexivity|].
  split; [intros a ->; reflexivity|].
  split; [intros ->; reflexivity|].
  split; intros inner -> Hown; unfold template; cbn [Js.ToString];
    rewrite Hown; reflexivity.
Qed.

(** X12: a 200 answer to [/subApps] of another shape.  Without
    [subApps] or [sonar] in it the lookup fails with a [TypeError], which
    is none of the library's errors; a service entry without flags counts
    as not enabled; with the three flags truthy, of whatever type, a
    missing [metadata] is a [TypeError] again, and an address that is
    missing or [null] is [WebServerAddressNotFoundError]. *)
Theorem loadServerAddress_malformed (st : State) (data : JsValue) :
  server env (log st)
    {| method := GET; url := baseUrl (this st) ++ "/subApps" |}
  = Resolved 200 data ->
  let result := fst (loadServerAddress env st) in
  (forall subApps,
      Js.get data "subApps" = Err (External TypeError)
      \/ (Js.get data "subApps" = Ok subApps
          /\ (Js.get subApps "sonar" = Err (External TypeError)
              \/ Js.get subApps "sonar" = Ok JUndefined)) ->
      result = Err (External TypeError))
  /\ (forall subApps sonarApp,
         Js.get data "subApps" = Ok subApps ->
         Js.get subApps "sonar" = Ok sonarApp ->
         Js.get sonarApp "isEnabled" = Ok JUndefined ->
         result = Err (Thrown SonarNotEnabledError))
  /\ (forall subApps sonarApp enabled ready running,
         Js.get data "subApps" = Ok subApps ->
         Js.get subApps "sonar" = Ok sonarApp ->
         Js.get sonarApp "isEnabled" = Ok enabled ->
         Js.get sonarApp "isReady" = Ok ready ->
         Js.get sonarApp "isRunning" = Ok running ->
         Js.truthy enabled = true -> Js.truthy ready = true ->
         Js.truthy running = true ->
         (Js.get sonarApp "metadata" = Ok JUndefined ->
          result = Err (External TypeError))
         /\ (forall metadata address,
                Js.get sonarApp "metadata" = Ok metadata ->
                Js.get metadata "webServerAddress" = Ok address ->
                address = JUndefined \/ address = JNull ->
                result = Err (Thrown WebServerAddressNotFoundError))).
Proof.
  intros H result. subst result.
  unfold loadServerAddress. run_monad. rewrite H.
  cbn [fst snd Z.eqb Pos.eqb negb].
  split; [|split].
  - intros subApps [E|[E [E'|E']]]; rewrite E; try reflexivity;
      rewrite E'; reflexivity.
  - intros subApps sonarApp E1 E2 E3. rewrite E1, E2, E3. reflexivity.
  - intros subApps sonarApp enabled ready running E1 E2 E3 E4 E5 T1 T2 T3.
    rewrite E1, E2, E3, T1. cbn [negb]. rewrite E4, T2. cbn [negb].
    rewrite E5, T3. cbn [negb]. split.
    + intros E6. rewrite E6. reflexivity.
    + intros metadata address E6 E7 [-> | ->]; rewrite E6, E7; reflexivity.
Qed.

(** X13: an empty [appDataPath] option counts as none, in the factory
    as a whole; any other is taken as it is and the default location is
    not consulted in its place: when nothing exists at the given path the
    factory fails with [EnginePathNotFoundError] whatever exists elsewhere.
    On Windows an empty or absent [ProgramData] stands for
    [C:\ProgramData]. *)
Theorem appDataPath_choice :
  (forall mode log0,
      create env {| opt_appDataPath := Some ""; opt_streamerMode := mode |} log0
      = create env {| opt_appDataPath := None; opt_streamerMode := mode |} log0)
  /\ (forall path mode,
         path <> "" ->
         appDataPath (constructor env {| opt_appDataPath := Some path;
                                         opt_streamerMode := mode |})
         = path)
  /\ (forall path mode log0,
         path <> "" -> existsSync env path = false ->
         create env {| opt_appDataPath := Some path; opt_streamerMode := mode |}
           log0
         = (Err (Thrown EnginePathNotFoundError), log0))
  /\ (os_platform env = "win32" ->
      env_ProgramData env = None \/ env_ProgramData env = Some "" ->
      getDefaultAppDataPath env
      = path_join env ["C:\ProgramData"; "SteelSeries"; "SteelSeries Engine 3";
                       "coreProps.json"]).
Proof.
  split; [|split; [|split]].
  - intros mode log0. reflexivity.
  - intros path mode Hne. cbn.
    destruct (String.eqb_spec path ""); [contradiction|reflexivity].
  - intros path mode log0 Hne Hex. rewrite create_run, loadBaseUrl_run.
    cbn [this constructor appDataPath opt_appDataPath].
    destruct (String.eqb_spec path ""); [contradiction|].
    rewrite Hex. reflexivity.
  - intros Hwin Hpd. unfold getDefaultAppDataPath. rewrite Hwin. cbn.
    destruct Hpd as [-> | ->]; reflexivity.
Qed.

End Documents.

(** ** Error messages *)

Lemma append_same_tail (s1 s2 t : string) : s1 ++ t = s2 ++ t -> s1 = s2.
Proof.
  assert (forall s u, String.length (s ++ u)
                      = (String.length s + String.length u)%nat) as Hlen.
  { induction s as [|c s IH]; intros u; cbn; [reflexivity|].
    rewrite IH. reflexivity. }
  revert s2. induction s1 as [|c s1 IH]; intros [|c2 s2] H.
  - reflexivity.
  - apply (f_equal String.length) in H. cbn in H. rewrite Hlen in H. lia.
  - apply (f_equal String.length) in H. cbn in H. rewrite Hlen in H. lia.
  - cbn in H. injection H as -> H. f_equal. apply IH. exact H.
Qed.

(** X14: the message of an error tells its class, however the runtime
    prints numbers: two errors of the library with the same message have
    the same name, and the same channel or slider when they carry one. *)
Theorem message_unambiguous (env : Env) (status : Z -> string)
    (e1 e2 : SonarError) :
  message env status e1 = message env status e2 ->
  name e1 = name e2
  /\ match e1, e2 with
     | ChannelNotFoundError a, ChannelNotFoundError b => a = b
     | SliderNotFoundError a, SliderNotFoundError b => a = b
     | _, _ => True
     end.
Proof.
  destruct e1, e2; cbn [message name]; intros H;
    try (split; [reflexivity|exact I]);
    try (exfalso; cbn in H; discriminate H).
  - split; [reflexivity|]. cbn in H.
    apply (append_same_tail _ _ "' not found"). congruence.
  - split; [reflexivity|]. cbn in H.
    apply (append_same_tail _ _ "' not found"). congruence.
Qed.

(** ** Instances *)

Lemma channel_validation_witness :
  setVolume env_ready "invalid" 0.5 None {| this := a_client true; log := [] |}
  = (Err (Thrown (ChannelNotFoundError "invalid")),
     {| this := a_client true; log := [] |})
  /\ muteChannel env_ready "invalid" true None
       {| this := a_client true; log := [] |}
     = (Err (Thrown (ChannelNotFoundError "invalid")),
        {| this := a_client true; log := [] |}).
Proof.
  refine (proj1 (channel_validation env_ready
                   {| this := a_client true; log := [] |}
                   "invalid" 0.5 true None) _).
  intros H. repeat destruct H as [H|H]; try discriminate H. exact H.
Defined.






Lemma operations_frame_witness :
  this (snd (call env_ready GetVolumeData
               {| this := a_client false; log := [] |}))
  = a_client false.
Proof.
  refine (proj1 (proj2 (proj2 (proj2
            (operations_frame env_ready GetVolumeData
               {| this := a_client false; log := [] |})))) _).
  intros b. discriminate.
Defined.

Lemma operation_requests_witness :
  snd (call env_ready StreamerMode {| this := a_client false; log := [] |})
  = {| this := a_client false; log := [] |}.
Proof.
  exact (proj2 (operation_requests env_ready StreamerMode
                  {| this := a_client false; log := [] |}) eq_refl).
Defined.


Lemma create_errors_witness :
  Thrown SonarNotEnabledError = Thrown EnginePathNotFoundError
  <-> [{| method := GET; url := "https://127.0.0.1:8080/subApps" |}] = [].
Proof.
  exact (proj1 (create_errors env_disabled no_options []
                  [{| method := GET; url := "https://127.0.0.1:8080/subApps" |}]
                  (Thrown SonarNotEnabledError) eq_refl)).
Defined.

Lemma loadBaseUrl_documents_witness :
  loadBaseUrl env_toString_config
    {| this := constructor env_toString_config no_options; log := [] |}
  = (Err (Thrown EnginePathNotFoundError),
     {| this := constructor env_toString_config no_options; log := [] |}).
Proof.
  exact (proj1 (proj2 (proj2 (proj2
           (loadBaseUrl_documents env_toString_config
              {| this := constructor env_toString_config no_options;
                 log := [] |}
              toString_config_text toString_config eq_refl eq_refl eq_refl))))
           [("toString", JNum 1)] eq_refl eq_refl).
Defined.

Lemma loadServerAddress_malformed_witness :
  fst (loadServerAddress env_other_service
         {| this := a_client false; log := [] |})
  = Err (External TypeError).
Proof.
  refine (proj1 (loadServerAddress_malformed env_other_service
                   {| this := a_client false; log := [] |}
                   (JStr "<html></html>") eq_refl) JUndefined _).
  right. split; [reflexivity|]. left. reflexivity.
Defined.

Lemma appDataPath_choice_witness :
  create env_no_file
    {| opt_appDataPath := Some "/opt/coreProps.json";
       opt_streamerMode := None |} []
  = (Err (Thrown EnginePathNotFoundError), []).
Proof.
  refine (proj1 (proj2 (proj2 (appDataPath_choice env_no_file)))
            "/opt/coreProps.json" None [] _ eq_refl).
  discriminate.
Defined.

(** Zero and negative zero are two numbers that print alike: the two
    errors are different and their messages are the same. *)
Lemma message_unambiguous_witness :
  InvalidVolumeError 0 <> InvalidVolumeError (-0)
  /\ name (InvalidVolumeError 0) = name (InvalidVolumeError (-0)).
Proof.
  split.
  - intros H.
    apply (f_equal (fun e => match e with
                             | InvalidVolumeError v => (1 / v <? 0)%float
                             | _ => false
                             end)) in H.
    vm_compute in H. discriminate H.
  - exact (proj1 (message_unambiguous env_ready (fun _ => "")
                    (InvalidVolumeError 0) (InvalidVolumeError (-0))
                    eq_refl)).
Defined.

Example test_exception_messages :
  message env_ready (fun _ => "") (ChannelNotFoundError "invalid")
     = "Channel 'invalid' not found"
  /\ message env_ready (fun _ => "") (SliderNotFoundError "invalid")
     = "Slider 'invalid' not found"
  /\ message env_ready (fun _ => "") SonarNotEnabledError
     = "SteelSeries Sonar is not enabled!"
  /\ message env_ready (fun _ => "") EnginePathNotFoundError
     = "SteelSeries Engine 3 not installed or not in the default location!".
Proof. repeat split. Qed.



